(** * Krevetka: the two publish scripts

    A shallow embedding of the repository's two publishing scripts:

    - the git script (CommonJS, [child_process.execSync]): checks the token,
      then replays a fixed sequence of git commands inside one [try]/[catch];
    - [publish.js] (ES module, Octokit): reads [docs/index.html] as base64 and
      issues one [createOrUpdateFileContents] request inside one
      [try]/[catch].

    Both scripts are straight-line effectful code.  They are modelled in a
    small monad [Proc] that threads the trace of observable events and
    distinguishes the three ways a JavaScript statement can complete here:
    normally, by a thrown error, or by [process.exit].  Everything outside the
    scripts (environment, subprocess results, file system, hosting API, clock,
    the host's locale formatter) is an oracle of the [World]. *)

From Stdlib Require Import ZArith Lia Ascii String.
From Stdlib.Strings Require Import Byte.
From stdpp Require Import base tactics option list strings gmap.

Local Open Scope Z_scope.

(** ** Base64 (RFC 4648), the encoding [fs.readFileSync] applies *)

Module Base64.

Definition alphabet : string :=
  "ABCDEFGHIJKLMNOPQRSTUVWXYZabcdefghijklmnopqrstuvwxyz0123456789+/".

Definition pad_char : ascii := "="%char.

Definition byte_to_Z (b : byte) : Z := Z.of_N (Byte.to_N b).
Definition byte_of_Z (z : Z) : option byte := Byte.of_N (Z.to_N z).

(** The character of a 6-bit value. *)
Definition char_of_sextet (n : Z) : ascii :=
  match String.get (Z.to_nat n) alphabet with
  | Some c => c
  | None => pad_char
  end.

(** The 6-bit value of a character of the alphabet. *)
Definition sextet_of_char (c : ascii) : option Z :=
  let n := Z.of_N (N_of_ascii c) in
  if (65 <=? n) && (n <=? 90) then Some (n - 65)
  else if (97 <=? n) && (n <=? 122) then Some (n - 71)
  else if (48 <=? n) && (n <=? 57) then Some (n + 4)
  else if n =? 43 then Some 62
  else if n =? 47 then Some 63
  else None.

(** Three bytes as one 24-bit group. *)
Definition group (a b c : Z) : Z := a * 65536 + b * 256 + c.

(** The four 6-bit values of a 24-bit group, most significant first. *)
Definition sextet (i : Z) (n : Z) : Z := (n / 64 ^ (3 - i)) mod 64.

(** [Buffer.toString("base64")]: three bytes give four characters, a last
    group of one or two bytes is padded with [=]. *)
Fixpoint encode (bs : list byte) : string :=
  match bs with
  | [] => EmptyString
  | [a] =>
      let n := group (byte_to_Z a) 0 0 in
      String (char_of_sextet (sextet 0 n)) (String (char_of_sextet (sextet 1 n))
        (String pad_char (String pad_char EmptyString)))
  | [a; b] =>
      let n := group (byte_to_Z a) (byte_to_Z b) 0 in
      String (char_of_sextet (sextet 0 n)) (String (char_of_sextet (sextet 1 n))
        (String (char_of_sextet (sextet 2 n)) (String pad_char EmptyString)))
  | a :: b :: c :: rest =>
      let n := group (byte_to_Z a) (byte_to_Z b) (byte_to_Z c) in
      String (char_of_sextet (sextet 0 n)) (String (char_of_sextet (sextet 1 n))
        (String (char_of_sextet (sextet 2 n)) (String (char_of_sextet (sextet 3 n))
          (encode rest))))
  end.

(** The table check behind the decoder: [n] is read back from its character,
    which is not the padding character. *)
Definition sextet_ok (n : Z) : bool :=
  match sextet_of_char (char_of_sextet n) with
  | Some m => (m =? n) && negb (Ascii.eqb (char_of_sextet n) pad_char)
  | None => false
  end.

(** The 24-bit group of four 6-bit values. *)
Definition ungroup (s0 s1 s2 s3 : Z) : Z :=
  s0 * 262144 + s1 * 4096 + s2 * 64 + s3.

(** The bytes of a 24-bit group, most significant first. *)
Definition octet (i : Z) (n : Z) : option byte :=
  byte_of_Z ((n / 256 ^ (2 - i)) mod 256).

(** The decoder of the receiving side: four characters give three bytes, a
    padded last group one or two. *)
Fixpoint decode (s : string) : option (list byte) :=
  match s with
  | EmptyString => Some []
  | String c0 (String c1 (String c2 (String c3 rest))) =>
      s0 ← sextet_of_char c0;
      s1 ← sextet_of_char c1;
      if Ascii.eqb c3 pad_char then
        match rest with
        | EmptyString =>
            if Ascii.eqb c2 pad_char then
              a ← octet 0 (ungroup s0 s1 0 0);
              Some [a]
            else
              s2 ← sextet_of_char c2;
              a ← octet 0 (ungroup s0 s1 s2 0);
              b ← octet 1 (ungroup s0 s1 s2 0);
              Some [a; b]
        | String _ _ => None
        end
      else
        s2 ← sextet_of_char c2;
        s3 ← sextet_of_char c3;
        a ← octet 0 (ungroup s0 s1 s2 s3);
        b ← octet 1 (ungroup s0 s1 s2 s3);
        c ← octet 2 (ungroup s0 s1 s2 s3);
        bs ← decode rest;
        Some (a :: b :: c :: bs)
  | _ => None
  end.

End Base64.

(** ** Strings and dates as the scripts format them *)

Module Text.

(** [s.split(sep)] for a one-character separator: never an empty array. *)
Fixpoint split (sep : ascii) (s : string) : list string :=
  match s with
  | EmptyString => [EmptyString]
  | String c rest =>
      if Ascii.eqb c sep then EmptyString :: split sep rest
      else match split sep rest with
           | [] => [String c EmptyString]
           | x :: xs => String c x :: xs
           end
  end.

(** The last decimal digit of [n] as a character. *)
Definition digit (n : Z) : ascii := ascii_of_N (48 + Z.to_N (n mod 10)).

(** The last [k] decimal digits of [n], zero-padded. *)
Fixpoint pad (k : nat) (n : Z) : string :=
  match k with
  | O => EmptyString
  | S k' => pad k' (n / 10) +:+ String (digit n) EmptyString
  end.

(** Whether the character [c] occurs in [s]. *)
Fixpoint occurs (c : ascii) (s : string) : bool :=
  match s with
  | EmptyString => false
  | String c' rest => Ascii.eqb c' c || occurs c rest
  end.

Definition is_digit (c : ascii) : bool :=
  let n := Z.of_N (N_of_ascii c) in (48 <=? n) && (n <=? 57).

Definition digit_value (c : ascii) : Z := Z.of_N (N_of_ascii c) - 48.

(** Reading an unsigned decimal numeral. *)
Fixpoint decimal_from (acc : Z) (s : string) : option Z :=
  match s with
  | EmptyString => Some acc
  | String c rest =>
      if is_digit c then decimal_from (acc * 10 + digit_value c) rest else None
  end.

Definition decimal (s : string) : option Z := decimal_from 0 s.

End Text.

(** ** The JavaScript runtime as the scripts use it *)

Module Js.

(** A thrown [Error]: its [name] and [message]. *)
Record JsError := mkError { err_name : string; err_message : string }.

(** [Error.prototype.toString]. *)
Definition toString (e : JsError) : string :=
  if String.eqb (err_name e) EmptyString then err_message e
  else if String.eqb (err_message e) EmptyString then err_name e
  else err_name e +:+ ": " +:+ err_message e.

(** An argument of [console.log] / [console.error]. *)
Inductive ConsoleArg :=
| AStr (s : string)
| AErr (e : JsError).

(** A calendar date: what remains of a [Date] once the time of day is
    dropped. *)
Record CalDate := mkCal { year : Z; month : Z; day : Z }.

(** A broken-down [Date] in one time zone. *)
Record DateTime := mkDateTime {
  date_of : CalDate;
  hours : Z; minutes : Z; seconds : Z; millis : Z
}.

(** A [Date] object, seen through the two views the scripts use: UTC
    ([toISOString]) and the host's local zone ([toLocaleDateString]). *)
Record Date := mkDate { utc : DateTime; local : DateTime }.

(** The parameters object of [octokit.repos.createOrUpdateFileContents]. *)
Abbreviation Params := (gmap string string).

(** Observable events, each external call recorded with its outcome. *)
Inductive Event :=
| ConsoleError (args : list ConsoleArg)
| ConsoleLog (args : list ConsoleArg)
| ExecSync (cmd : string) (failure : option JsError)
| ReadFileSync (path : string) (result : JsError + list byte)
| CreateOrUpdateFileContents (auth : option string) (params : Params)
                             (failure : option JsError).

Abbreviation Trace := (list Event).

(** Everything the scripts read from outside.  The oracles see the events
    so far, so an outcome may depend on what earlier steps did. *)
Record World := mkWorld {
  env : gmap string string;
  path_sep : string;
  cwd : string;
  now : Date;
  locale_date : string -> CalDate -> string;
  exec_oracle : Trace -> string -> option JsError;
  fs_oracle : Trace -> string -> JsError + list byte;
  api_oracle : Trace -> option string -> Params -> option JsError
}.

(** How a computation completes. *)
Inductive Completion (A : Type) :=
| Normal (a : A)
| Throw (e : JsError)
| Exit (code : Z).
Arguments Normal {A} a.
Arguments Throw {A} e.
Arguments Exit {A} code.

Definition Proc (A : Type) : Type := World -> Trace -> Completion A * Trace.

Definition ret {A} (a : A) : Proc A := fun _ tr => (Normal a, tr).

Definition bind {A B} (m : Proc A) (k : A -> Proc B) : Proc B :=
  fun w tr =>
    match m w tr with
    | (Normal a, tr') => k a w tr'
    | (Throw e, tr') => (Throw e, tr')
    | (Exit c, tr') => (Exit c, tr')
    end.

Definition emit (ev : Event) : Proc unit :=
  fun _ tr => (Normal tt, tr ++ [ev]).

(** [try { body } catch (e) { handler e }]: only a thrown error reaches the
    handler, [process.exit] leaves at once. *)
Definition try_catch {A} (body : Proc A) (handler : JsError -> Proc A) : Proc A :=
  fun w tr =>
    match body w tr with
    | (Throw e, tr') => handler e w tr'
    | r => r
    end.

(** [process.env.NAME]: [None] is [undefined]. *)
Definition process_env (name : string) : Proc (option string) :=
  fun w tr => (Normal (env w !! name), tr).

(** Truthiness of a string-or-undefined value: [undefined] and the empty
    string are falsy. *)
Definition truthy (v : option string) : bool :=
  match v with
  | None => false
  | Some s => negb (String.eqb s EmptyString)
  end.

(** A string-or-undefined value inside a template literal. *)
Definition interpolate (v : option string) : string :=
  match v with
  | None => "undefined"
  | Some s => s
  end.

Definition console_error (args : list ConsoleArg) : Proc unit :=
  emit (ConsoleError args).

Definition console_log (args : list ConsoleArg) : Proc unit :=
  emit (ConsoleLog args).

Definition process_exit (code : Z) : Proc unit :=
  fun _ tr => (Exit code, tr).

Definition process_cwd : Proc string :=
  fun w tr => (Normal (cwd w), tr).

(** [execSync(cmd)]: runs the command to completion and throws when it
    fails; the returned output is not used by the scripts. *)
Definition execSync (cmd : string) : Proc unit :=
  fun w tr =>
    match exec_oracle w tr cmd with
    | None => (Normal tt, tr ++ [ExecSync cmd None])
    | Some e => (Throw e, tr ++ [ExecSync cmd (Some e)])
    end.

Definition new_Date : Proc Date :=
  fun w tr => (Normal (now w), tr).

(** [date.toLocaleDateString(locale)]: with no options the host formats
    year, month and day of the local calendar date. *)
Definition toLocaleDateString (d : Date) (locale : string) : Proc string :=
  fun w tr => (Normal (locale_date w locale (date_of (local d))), tr).

(** [date.toISOString()]: [YYYY-MM-DDTHH:mm:ss.sssZ] in UTC; a year outside
    0..9999 is written with a sign and six digits. *)
Definition iso_year (y : Z) : string :=
  if (0 <=? y) && (y <=? 9999) then Text.pad 4 y
  else (if y <? 0 then "-" else "+") +:+ Text.pad 6 (Z.abs y).

Definition iso_date (d : CalDate) : string :=
  iso_year (year d) +:+ "-" +:+ Text.pad 2 (month d) +:+ "-" +:+ Text.pad 2 (day d).

Definition iso_time (t : DateTime) : string :=
  Text.pad 2 (hours t) +:+ ":" +:+ Text.pad 2 (minutes t) +:+ ":" +:+
  Text.pad 2 (seconds t) +:+ "." +:+ Text.pad 3 (millis t) +:+ "Z".

Definition toISOString (d : Date) : string :=
  iso_date (date_of (utc d)) +:+ "T" +:+ iso_time (utc d).

(** [path.join(a, b)] on two plain segments. *)
Definition path_join (a b : string) : Proc string :=
  fun w tr => (Normal (a +:+ path_sep w +:+ b), tr).

(** [fs.readFileSync(path, { encoding: "base64" })]: the bytes of the file
    as base64 text, or the file system's error thrown. *)
Definition readFileSync_base64 (path : string) : Proc string :=
  fun w tr =>
    match fs_oracle w tr path with
    | inr bytes => (Normal (Base64.encode bytes), tr ++ [ReadFileSync path (inr bytes)])
    | inl e => (Throw e, tr ++ [ReadFileSync path (inl e)])
    end.

(** An Octokit client: only its [auth] option matters here. *)
Record Octokit := new_Octokit { auth : option string }.

(** [await octokit.repos.createOrUpdateFileContents(params)]: one request;
    a rejected promise is thrown at the [await]. *)
Definition createOrUpdateFileContents (o : Octokit) (params : Params) : Proc unit :=
  fun w tr =>
    match api_oracle w tr (auth o) params with
    | None => (Normal tt, tr ++ [CreateOrUpdateFileContents (auth o) params None])
    | Some e => (Throw e, tr ++ [CreateOrUpdateFileContents (auth o) params (Some e)])
    end.

(** The exit status of the process and everything it did: a script that
    runs off its end exits 0, an error nobody caught is printed and gives
    status 1. *)
Definition run (script : Proc unit) (w : World) : Z * Trace :=
  match script w [] with
  | (Normal _, tr) => (0, tr)
  | (Throw e, tr) => (1, tr ++ [ConsoleError [AErr e]])
  | (Exit c, tr) => (c, tr)
  end.

Definition exit_code (script : Proc unit) (w : World) : Z := fst (run script w).
Definition trace (script : Proc unit) (w : World) : Trace := snd (run script w).

(** Projections of a trace. *)
Definition exec_of (ev : Event) : option (string * option JsError) :=
  match ev with
  | ExecSync cmd r => Some (cmd, r)
  | _ => None
  end.

Definition request_of (ev : Event) : option (option string * Params) :=
  match ev with
  | CreateOrUpdateFileContents auth p _ => Some (auth, p)
  | _ => None
  end.

Definition stderr_of (ev : Event) : option (list ConsoleArg) :=
  match ev with
  | ConsoleError args => Some args
  | _ => None
  end.

Definition is_read (ev : Event) : bool :=
  match ev with
  | ReadFileSync _ _ => true
  | _ => false
  end.

(** The subprocess invocations of a trace, in order, with their outcome. *)
Definition execs (tr : Trace) : list (string * option JsError) := omap exec_of tr.
(** The commands alone. *)
Definition commands (tr : Trace) : list string := fst <$> execs tr.
(** The API requests of a trace, in order. *)
Definition requests (tr : Trace) : list (option string * Params) := omap request_of tr.
(** What was written to standard error. *)
Definition stderr (tr : Trace) : list (list ConsoleArg) := omap stderr_of tr.
(** The file reads of a trace. *)
Definition reads (tr : Trace) : Trace := filter (fun ev => is_read ev = true) tr.

End Js.

Import Js.

Declare Scope proc_scope.
Delimit Scope proc_scope with proc.
Notation "'do' x <- m ; k" := (Js.bind m (fun x => k))
  (at level 10, x name, m at level 100, k at level 200) : proc_scope.
Notation "m ;;; k" := (Js.bind m (fun _ => k))
  (at level 100, k at level 200, right associativity) : proc_scope.

(** A double quote, for the shell commands that contain one. *)
Definition dq : string := String (ascii_of_nat 34) EmptyString.

(** ** The git script *)

Module GitRepublish.

Definition cmd_init : string := "git init".
Definition cmd_checkout : string := "git checkout --orphan gh-pages".
Definition cmd_config_email : string :=
  "git config --local user.email " +:+ dq +:+
  "github-actions[bot]@users.noreply.github.com" +:+ dq.
Definition cmd_config_name : string :=
  "git config --local user.name " +:+ dq +:+ "github-actions[bot]" +:+ dq.
Definition cmd_add : string := "git add .".
Definition commit_prefix : string := "Обновление чейнджлога".
Definition commit_message (date : string) : string :=
  commit_prefix +:+ ": " +:+ date.
Definition cmd_commit (date : string) : string :=
  "git commit -m " +:+ dq +:+ commit_message date +:+ dq.
Definition remote_url (token : string) : string :=
  "https://" +:+ token +:+ "@github.com/BuildersSC/Krevetka.git".
Definition cmd_remote (token : string) : string :=
  "git remote add origin " +:+ remote_url token.
Definition cmd_push : string := "git push -f origin gh-pages".

Definition missing_token_message : string := "Ошибка: GITHUB_TOKEN не установлен".

(** The body of the [try] block. *)
Definition publish (token : option string) : Proc unit :=
  (execSync cmd_init ;;;
   execSync cmd_checkout ;;;
   execSync cmd_config_email ;;;
   execSync cmd_config_name ;;;
   do currentDir <- process_cwd ;
   console_log [AStr "Текущая директория:"; AStr currentDir] ;;;
   execSync cmd_add ;;;
   do d <- new_Date ;
   do date <- toLocaleDateString d "ru-RU" ;
   execSync (cmd_commit date) ;;;
   execSync (cmd_remote (interpolate token)) ;;;
   execSync cmd_push ;;;
   console_log [AStr "Успешно опубликовано на GitHub Pages"])%proc.

Definition on_error (error : JsError) : Proc unit :=
  (console_error [AStr "Ошибка при публикации:"; AStr (toString error)] ;;;
   process_exit 1)%proc.

(** The whole script. *)
Definition main : Proc unit :=
  (do token <- process_env "GITHUB_TOKEN" ;
   (if negb (truthy token)
    then console_error [AStr missing_token_message] ;;; process_exit 1
    else ret tt) ;;;
   try_catch (publish token) on_error)%proc.

(** The commands of a complete run, in the order the script issues them. *)
Definition git_commands (token date : string) : list string :=
  [ cmd_init; cmd_checkout; cmd_config_email; cmd_config_name; cmd_add;
    cmd_commit date; cmd_remote token; cmd_push ].

End GitRepublish.

(** ** [publish.js] *)

Module ApiUpload.

Definition message (date : option string) : string :=
  "Update ChangeLog on " +:+ interpolate date.

(** The object literal passed to [createOrUpdateFileContents]. *)
Definition payload (content : string) (date : option string) : Params :=
  {[ "owner" := "BuildersSC";
     "repo" := "Krevetka";
     "path" := "docs/index.html";
     "message" := message date;
     "content" := content;
     "branch" := "gh-pages" ]}.

(** [new Date().toISOString().split("T")[0]]. *)
Definition date_stamp (d : Date) : option string :=
  Text.split "T" (toISOString d) !! 0%nat.

Definition on_error (err : JsError) : Proc unit :=
  (console_error [AStr "Upload failed:"; AErr err] ;;;
   process_exit 1)%proc.

Definition uploadFile (octokit : Octokit) : Proc unit :=
  try_catch
    (do filePath <- path_join "docs" "index.html" ;
     do content <- readFileSync_base64 filePath ;
     do d <- new_Date ;
     let date := date_stamp d in
     createOrUpdateFileContents octokit (payload content date) ;;;
     console_log [AStr "File uploaded successfully!"])%proc
    on_error.

(** The module body: build the client from the environment, call
    [uploadFile]. *)
Definition main : Proc unit :=
  (do token <- process_env "GITHUB_TOKEN" ;
   uploadFile (new_Octokit token))%proc.

End ApiUpload.

(** ** The documented date format *)

Module Documented.

(** Reading a date written [YYYY-MM-DD]: four, two and two decimal digits
    separated by hyphens, and nothing else. *)
Definition parse_date (s : string) : option CalDate :=
  match Text.split "-" s with
  | [y; m; d] =>
      if ((String.length y =? 4) && (String.length m =? 2) && (String.length d =? 2))%nat
      then
        y' ← Text.decimal y;
        m' ← Text.decimal m;
        d' ← Text.decimal d;
        Some (mkCal y' m' d')
      else None
  | _ => None
  end.

(** A calendar date with a four-digit year. *)
Definition four_digit_year (c : CalDate) : Prop := 0 <= year c <= 9999.

Definition valid_month_day (c : CalDate) : Prop :=
  1 <= month c <= 12 /\ 1 <= day c <= 31.

End Documented.

(** ** Reading a run *)

(** The path [publish.js] reads. *)
Definition artifact_path (w : World) : string :=
  "docs" +:+ path_sep w +:+ "index.html".

(** The error of a failed external call. *)
Definition failure_of (ev : Event) : option JsError :=
  match ev with
  | ExecSync _ r => r
  | ReadFileSync _ (inl e) => Some e
  | ReadFileSync _ (inr _) => None
  | CreateOrUpdateFileContents _ _ r => r
  | ConsoleError _ | ConsoleLog _ => None
  end.

(** Every error an external call of the run ended in. *)
Definition failures (tr : Trace) : list JsError := omap failure_of tr.

(** A run that stops at a precondition: status 1, a message on standard
    error, and no subprocess, no file read, no API request. *)
Definition aborts_before_acting (script : Proc unit) (w : World) : Prop :=
  exit_code script w = 1 /\
  stderr (trace script w) <> [] /\
  execs (trace script w) = [] /\
  reads (trace script w) = [] /\
  requests (trace script w) = [].

(** A hosting API that turns down every request sent without
    authentication. *)
Definition refuses_anonymous (w : World) : Prop :=
  forall tr p, is_Some (api_oracle w tr None p).

(** A hosting API that turns down every request that names no blob SHA: the
    file is there already and updates must say which blob they replace. *)
Definition demands_sha (w : World) : Prop :=
  forall tr auth p, p !! "sha" = None -> is_Some (api_oracle w tr auth p).

(** Invocations that all succeeded. *)
Definition succeeded (cmds : list string) : list (string * option JsError) :=
  (fun c => (c, None)) <$> cmds.

(** ** Concrete worlds *)

Module Examples.

Definition enoent : JsError :=
  mkError "Error" "ENOENT: no such file or directory, open 'docs/index.html'".
Definition unauthorized : JsError := mkError "HttpError" "Requires authentication".
Definition sha_missing : JsError := mkError "HttpError" "Invalid request: sha was not supplied".
Definition push_rejected : JsError :=
  mkError "Error" "Command failed: git push -f origin gh-pages".

(** The [ru-RU] short date, day.month.year. *)
Definition ru_RU (locale : string) (c : CalDate) : string :=
  Text.pad 2 (day c) +:+ "." +:+ Text.pad 2 (month c) +:+ "." +:+ Text.pad 4 (year c).

(** 1 November 2026, 22:30 UTC, on a host three hours ahead of UTC. *)
Definition evening : Date :=
  mkDate (mkDateTime (mkCal 2026 11 1) 22 30 0 0) (mkDateTime (mkCal 2026 11 2) 1 30 0 0).

(** Later on the same UTC day and the same local day. *)
Definition late_evening : Date :=
  mkDate (mkDateTime (mkCal 2026 11 1) 23 45 10 250)
         (mkDateTime (mkCal 2026 11 2) 2 45 10 250).

(** 1 January of the year 10000. *)
Definition far_future : Date :=
  mkDate (mkDateTime (mkCal 10000 1 1) 0 0 0 0) (mkDateTime (mkCal 10000 1 1) 3 0 0 0).

(** The three bytes [Hi!]. *)
Definition artifact : list byte := [x48; x69; x21]%byte.

(** A hosting API that accepts authenticated requests only. *)
Definition api_authenticated (tr : Trace) (auth : option string) (p : Params) : option JsError :=
  match auth with
  | None => Some unauthorized
  | Some _ => None
  end.

(** A hosting API holding the file already and demanding its blob SHA. *)
Definition api_demands_sha (tr : Trace) (auth : option string) (p : Params) : option JsError :=
  match p !! "sha" with
  | None => Some sha_missing
  | Some _ => None
  end.

(** Token set, every step succeeds. *)
Definition healthy : World :=
  mkWorld {[ "GITHUB_TOKEN" := "ghp_example" ]} "/" "/home/runner/work" evening ru_RU
          (fun _ _ => None) (fun _ _ => inr artifact) api_authenticated.

(** Token unset, the file is there, the API turns anonymous requests down. *)
Definition no_token : World :=
  mkWorld ∅ "/" "/home/runner/work" evening ru_RU
          (fun _ _ => None) (fun _ _ => inr artifact) api_authenticated.

(** Token set, the push is rejected. *)
Definition push_fails : World :=
  mkWorld {[ "GITHUB_TOKEN" := "ghp_example" ]} "/" "/home/runner/work" evening ru_RU
          (fun _ cmd => if String.eqb cmd GitRepublish.cmd_push then Some push_rejected else None)
          (fun _ _ => inr artifact) api_authenticated.

(** Token set, [docs/index.html] missing. *)
Definition missing_file : World :=
  mkWorld {[ "GITHUB_TOKEN" := "ghp_example" ]} "/" "/home/runner/work" evening ru_RU
          (fun _ _ => None) (fun _ _ => inl enoent) api_authenticated.

(** Token set, the remote file exists and the API demands its SHA. *)
Definition existing_file : World :=
  mkWorld {[ "GITHUB_TOKEN" := "ghp_example" ]} "/" "/home/runner/work" evening ru_RU
          (fun _ _ => None) (fun _ _ => inr artifact) api_demands_sha.

(** As [healthy] and on the same day, but later, from another directory and
    against an API that demands the SHA. *)
Definition same_day : World :=
  mkWorld {[ "GITHUB_TOKEN" := "ghp_example" ]} "/" "/tmp/other" late_evening ru_RU
          (fun _ _ => None) (fun _ _ => inr artifact) api_demands_sha.

(** As [healthy], with the clock in the year 10000. *)
Definition year_10000 : World :=
  mkWorld {[ "GITHUB_TOKEN" := "ghp_example" ]} "/" "/home/runner/work" far_future ru_RU
          (fun _ _ => None) (fun _ _ => inr artifact) api_authenticated.

End Examples.

(** ** Console output, joined pieces, edge worlds *)

Definition stdout_of (ev : Event) : option (list ConsoleArg) :=
  match ev with
  | ConsoleLog args => Some args
  | _ => None
  end.

(** What was written to standard output. *)
Definition stdout (tr : Trace) : list (list ConsoleArg) := omap stdout_of tr.

(** [pieces.join(sep)] for a one-character separator. *)
Fixpoint join (sep : ascii) (pieces : list string) : string :=
  match pieces with
  | [] => EmptyString
  | [x] => x
  | x :: rest => x +:+ String sep (join sep rest)
  end.

(** How often the character [c] occurs in [s]. *)
Fixpoint count_char (c : ascii) (s : string) : nat :=
  match s with
  | EmptyString => O
  | String c' rest => (if Ascii.eqb c' c then 1 else 0) + count_char c rest
  end.

(** Whether every character of [s] passes the test [f]. *)
Fixpoint all_chars (f : ascii -> bool) (s : string) : bool :=
  match s with
  | EmptyString => true
  | String c rest => f c && all_chars f rest
  end.

(** A character of base64 text: one of the alphabet, or the padding. *)
Definition base64_char (c : ascii) : bool :=
  Text.occurs c Base64.alphabet || Ascii.eqb c Base64.pad_char.

Module Edge.

(** GITHUB_TOKEN set to the empty string. *)
Definition empty_token : World :=
  mkWorld {[ "GITHUB_TOKEN" := EmptyString ]} "/" "/home/runner/work"
          Examples.evening Examples.ru_RU
          (fun _ _ => None) (fun _ _ => inr Examples.artifact) Examples.api_authenticated.

(** Token set, [docs/index.html] present and empty. *)
Definition empty_file : World :=
  mkWorld {[ "GITHUB_TOKEN" := "ghp_example" ]} "/" "/home/runner/work"
          Examples.evening Examples.ru_RU
          (fun _ _ => None) (fun _ _ => inr []) Examples.api_authenticated.

(** Token set, another artifact: the two bytes [Hi]. *)
Definition other_file : World :=
  mkWorld {[ "GITHUB_TOKEN" := "ghp_example" ]} "/" "/home/runner/work"
          Examples.evening Examples.ru_RU
          (fun _ _ => None) (fun _ _ => inr [x48; x69]%byte) Examples.api_authenticated.

End Edge.

(** ** Further worlds: an open host, an early failure, other clocks *)

Module Scenarios.

Definition add_rejected : JsError := mkError "Error" "Command failed: git add .".



(** Token set, git add fails. *)
Definition add_fails : World :=
  mkWorld {[ "GITHUB_TOKEN" := "ghp_example" ]} "/" "/home/runner/work"
          Examples.evening Examples.ru_RU
          (fun _ cmd => if String.eqb cmd GitRepublish.cmd_add then Some add_rejected else None)
          (fun _ _ => inr Examples.artifact) Examples.api_authenticated.

(** 2 November 2026, 12:00 on the host of [Examples.evening]: the same local
    day as [Examples.evening], the next UTC day. *)
Definition noon : Date :=
  mkDate (mkDateTime (mkCal 2026 11 2) 9 0 0 0) (mkDateTime (mkCal 2026 11 2) 12 0 0 0).

(** 1 November 2026, 12:00 on that host: the same UTC day as
    [Examples.evening], the local day before. *)
Definition morning : Date :=
  mkDate (mkDateTime (mkCal 2026 11 1) 9 0 0 0) (mkDateTime (mkCal 2026 11 1) 12 0 0 0).

Definition unpadded (n : Z) : string :=
  if n <? 10 then Text.pad 1 n else Text.pad 2 n.

(** A host without ru-RU locale data, falling back to month/day/year. *)
Definition en_US (locale : string) (c : CalDate) : string :=
  unpadded (month c) +:+ "/" +:+ unpadded (day c) +:+ "/" +:+ Text.pad 4 (year c).

(** As [Examples.healthy], at [noon]. *)
Definition same_local_day : World :=
  mkWorld {[ "GITHUB_TOKEN" := "ghp_example" ]} "/" "/home/runner/work" noon Examples.ru_RU
          (fun _ _ => None) (fun _ _ => inr Examples.artifact) Examples.api_authenticated.

(** As [Examples.healthy], at [morning]. *)
Definition same_utc_day : World :=
  mkWorld {[ "GITHUB_TOKEN" := "ghp_example" ]} "/" "/home/runner/work" morning Examples.ru_RU
          (fun _ _ => None) (fun _ _ => inr Examples.artifact) Examples.api_authenticated.

(** As [Examples.healthy], on the host without ru-RU data. *)
Definition other_locale : World :=
  mkWorld {[ "GITHUB_TOKEN" := "ghp_example" ]} "/" "/home/runner/work"
          Examples.evening en_US
          (fun _ _ => None) (fun _ _ => inr Examples.artifact) Examples.api_authenticated.

End Scenarios.

(** * Properties *)

(** ** Base64: decoding undoes encoding *)

Section Base64Facts.
Import Base64.

Lemma byte_to_Z_range b : 0 <= byte_to_Z b < 256.
Proof.
  unfold byte_to_Z. pose proof (Byte.to_N_bounded b). lia.
Qed.

Lemma byte_of_to_Z b : byte_of_Z (byte_to_Z b) = Some b.
Proof.
  unfold byte_of_Z, byte_to_Z. rewrite N2Z.id. apply Byte.of_to_N.
Qed.

Lemma sextet_range i n : 0 <= sextet i n < 64.
Proof. unfold sextet. apply Z.mod_pos_bound. lia. Qed.

Lemma sextet_table : forallb sextet_ok (seqZ 0 64) = true.
Proof. vm_compute. reflexivity. Qed.

Lemma sextet_ok_range n : 0 <= n < 64 -> sextet_ok n = true.
Proof.
  intros Hn. pose proof sextet_table as Ht.
  rewrite forallb_forall in Ht. apply Ht.
  apply list_elem_of_In, elem_of_seqZ. lia.
Qed.

Lemma sextet_of_char_of_sextet n :
  0 <= n < 64 -> sextet_of_char (char_of_sextet n) = Some n.
Proof.
  intros Hn. pose proof (sextet_ok_range n Hn) as Hok. unfold sextet_ok in Hok.
  destruct (sextet_of_char (char_of_sextet n)) as [m|]; [|done].
  apply andb_prop in Hok as [Hm _]. apply Z.eqb_eq in Hm. by subst.
Qed.

Lemma char_of_sextet_not_pad n :
  0 <= n < 64 -> Ascii.eqb (char_of_sextet n) pad_char = false.
Proof.
  intros Hn. pose proof (sextet_ok_range n Hn) as Hok. unfold sextet_ok in Hok.
  destruct (sextet_of_char (char_of_sextet n)) as [m|]; [|done].
  apply andb_prop in Hok as [_ Hp]. by apply negb_true_iff in Hp.
Qed.

Lemma ungroup_sextets n :
  0 <= n < 16777216 ->
  ungroup (sextet 0 n) (sextet 1 n) (sextet 2 n) (sextet 3 n) = n.
Proof.
  intros Hn. unfold ungroup, sextet.
  change (64 ^ (3 - 0)) with 262144. change (64 ^ (3 - 1)) with 4096.
  change (64 ^ (3 - 2)) with 64. change (64 ^ (3 - 3)) with 1.
  Z.div_mod_to_equations. lia.
Qed.

Ltac octet_pow :=
  unfold octet, group;
  change (256 ^ (2 - 0)) with 65536; change (256 ^ (2 - 1)) with 256;
  change (256 ^ (2 - 2)) with 1.

Lemma octets_group a b c :
  let n := group (byte_to_Z a) (byte_to_Z b) (byte_to_Z c) in
  octet 0 n = Some a /\ octet 1 n = Some b /\ octet 2 n = Some c.
Proof.
  pose proof (byte_to_Z_range a). pose proof (byte_to_Z_range b).
  pose proof (byte_to_Z_range c). cbv zeta. octet_pow.
  rewrite <- (byte_of_to_Z a). rewrite <- (byte_of_to_Z b).
  rewrite <- (byte_of_to_Z c).
  repeat split; f_equal; Z.div_mod_to_equations; lia.
Qed.

Lemma group_range a b c :
  0 <= group (byte_to_Z a) (byte_to_Z b) (byte_to_Z c) < 16777216.
Proof.
  pose proof (byte_to_Z_range a). pose proof (byte_to_Z_range b).
  pose proof (byte_to_Z_range c). unfold group. lia.
Qed.

Lemma ungroup_two a b :
  let n := group (byte_to_Z a) (byte_to_Z b) 0 in
  let m := ungroup (sextet 0 n) (sextet 1 n) (sextet 2 n) 0 in
  octet 0 m = Some a /\ octet 1 m = Some b.
Proof.
  pose proof (byte_to_Z_range a). pose proof (byte_to_Z_range b).
  cbv zeta. octet_pow. unfold ungroup, sextet.
  change (64 ^ (3 - 0)) with 262144. change (64 ^ (3 - 1)) with 4096.
  change (64 ^ (3 - 2)) with 64.
  rewrite <- (byte_of_to_Z a). rewrite <- (byte_of_to_Z b).
  split; f_equal; Z.div_mod_to_equations; lia.
Qed.

Lemma ungroup_one a :
  let n := group (byte_to_Z a) 0 0 in
  octet 0 (ungroup (sextet 0 n) (sextet 1 n) 0 0) = Some a.
Proof.
  pose proof (byte_to_Z_range a).
  cbv zeta. octet_pow. unfold ungroup, sextet.
  change (64 ^ (3 - 0)) with 262144. change (64 ^ (3 - 1)) with 4096.
  rewrite <- (byte_of_to_Z a).
  f_equal; Z.div_mod_to_equations; lia.
Qed.

Lemma decode_encode bs : decode (encode bs) = Some bs.
Proof.
  remember (length bs) as n eqn:Hn. revert bs Hn.
  induction (lt_wf n) as [n _ IH]. intros bs Hn.
  destruct bs as [|a [|b [|c rest]]].
  - reflexivity.
  - cbn [encode decode].
    rewrite !sextet_of_char_of_sextet by apply sextet_range.
    cbn. rewrite ungroup_one. reflexivity.
  - cbn [encode decode].
    rewrite !sextet_of_char_of_sextet by apply sextet_range.
    cbn. rewrite (char_of_sextet_not_pad (sextet 2 _)) by apply sextet_range.
    cbn.
    destruct (ungroup_two a b) as [-> ->]. reflexivity.
  - cbn [encode decode].
    rewrite !sextet_of_char_of_sextet by apply sextet_range.
    cbn. rewrite (char_of_sextet_not_pad (sextet 3 _)) by apply sextet_range.
    cbn.
    rewrite ungroup_sextets by apply group_range.
    destruct (octets_group a b c) as (-> & -> & ->). cbn.
    rewrite (IH (length rest)) with (bs := rest); [reflexivity| |reflexivity].
    subst n. cbn. lia.
Qed.

End Base64Facts.

(** ** Splitting, padding and reading decimal numerals *)

Section TextFacts.
Import Text.

Lemma append_nil b : EmptyString +:+ b = b.
Proof. reflexivity. Qed.

Lemma append_cons x a b : String x a +:+ b = String x (a +:+ b).
Proof. reflexivity. Qed.

Lemma occurs_app c a b : occurs c (a +:+ b) = occurs c a || occurs c b.
Proof.
  induction a as [|x a IH]; [done|].
  rewrite append_cons. cbn. rewrite IH. by rewrite orb_assoc.
Qed.

Lemma split_free sep a : occurs sep a = false -> split sep a = [a].
Proof.
  induction a as [|x a IH]; cbn; [done|].
  intros [Hx Ha]%orb_false_elim. rewrite Hx, (IH Ha). done.
Qed.

Lemma split_app sep a b :
  occurs sep a = false -> split sep (a +:+ String sep b) = a :: split sep b.
Proof.
  induction a as [|x a IH].
  - intros _. rewrite append_nil. cbn. by rewrite Ascii.eqb_refl.
  - rewrite append_cons. cbn. intros [Hx Ha]%orb_false_elim.
    rewrite Hx, (IH Ha). done.
Qed.

Lemma digit_spec n : is_digit (digit n) = true /\ digit_value (digit n) = n mod 10.
Proof.
  unfold digit. pose proof (Z.mod_pos_bound n 10 ltac:(lia)) as Hr.
  revert Hr. generalize (n mod 10). intros r Hr.
  unfold is_digit, digit_value. rewrite N_ascii_embedding by lia. 
  split; [|lia]. apply andb_true_intro. split; apply Z.leb_le; lia.
Qed.

Lemma digit_not c n : is_digit c = false -> Ascii.eqb (digit n) c = false.
Proof.
  intros Hc. destruct (Ascii.eqb_spec (digit n) c) as [<-|]; [|done].
  destruct (digit_spec n) as [Hd _]. congruence.
Qed.

Lemma occurs_pad c k n : is_digit c = false -> occurs c (pad k n) = false.
Proof.
  intros Hc. revert n. induction k as [|k IH]; intros n; cbn; [done|].
  rewrite occurs_app, IH. cbn. rewrite (digit_not c n Hc). done.
Qed.

Lemma length_app_string a b : String.length (a +:+ b) = (String.length a + String.length b)%nat.
Proof.
  induction a as [|x a IH]; [done|]. rewrite append_cons. cbn. congruence.
Qed.

Lemma length_pad k n : String.length (pad k n) = k.
Proof.
  revert n. induction k as [|k IH]; intros n; cbn; [done|].
  rewrite length_app_string, IH. cbn. lia.
Qed.

Lemma decimal_from_app acc a b :
  decimal_from acc (a +:+ b) = decimal_from acc a ≫= fun v => decimal_from v b.
Proof.
  revert acc. induction a as [|x a IH]; intros acc; [done|].
  rewrite append_cons. cbn. destruct (is_digit x); [apply IH|done].
Qed.

Lemma decimal_from_pad acc k n :
  decimal_from acc (pad k n) = Some (acc * 10 ^ Z.of_nat k + n mod 10 ^ Z.of_nat k).
Proof.
  revert acc n. induction k as [|k IH]; intros acc n.
  - cbn. rewrite Z.mod_1_r. f_equal. lia.
  - cbn [pad]. rewrite decimal_from_app, IH. cbn [mbind option_bind decimal_from].
    destruct (digit_spec n) as [-> ->]. f_equal.
    rewrite Nat2Z.inj_succ, Z.pow_succ_r by lia.
    rewrite (Z.rem_mul_r n 10 (10 ^ Z.of_nat k)) by lia. lia.
Qed.

Lemma decimal_pad k n : 0 <= n < 10 ^ Z.of_nat k -> decimal (pad k n) = Some n.
Proof.
  intros Hn. unfold decimal. rewrite decimal_from_pad, Z.mod_small by done. done.
Qed.

End TextFacts.

(** ** Dates *)

Section DateFacts.
Import Text Documented.

Lemma occurs_T_iso_year y : occurs "T" (iso_year y) = false.
Proof.
  unfold iso_year. destruct ((0 <=? y) && (y <=? 9999)).
  - by apply occurs_pad.
  - rewrite occurs_app, occurs_pad by done. by destruct (y <? 0).
Qed.

Lemma occurs_T_iso_date c : occurs "T" (iso_date c) = false.
Proof.
  unfold iso_date.
  rewrite !occurs_app, occurs_T_iso_year, !occurs_pad by done. done.
Qed.

(** [toISOString().split("T")[0]] is the date part, whatever the time of
    day. *)
Lemma date_stamp_iso d : ApiUpload.date_stamp d = Some (iso_date (date_of (utc d))).
Proof.
  unfold ApiUpload.date_stamp, toISOString.
  change ("T" +:+ iso_time (utc d)) with (String "T" (iso_time (utc d))).
  rewrite split_app by apply occurs_T_iso_date. done.
Qed.

Lemma iso_year_four_digits y : 0 <= y <= 9999 -> iso_year y = pad 4 y.
Proof.
  intros Hy. unfold iso_year.
  destruct (Z.leb_spec 0 y); [|lia]. destruct (Z.leb_spec y 9999); [|lia]. done.
Qed.

(** A date with a four-digit year is written [YYYY-MM-DD] and reads back. *)
Lemma parse_iso_date c :
  four_digit_year c -> valid_month_day c -> parse_date (iso_date c) = Some c.
Proof.
  intros Hy [Hm Hd]. unfold four_digit_year in Hy. destruct c as [y m d]; cbn in *.
  unfold parse_date, iso_date; cbn [year month day].
  rewrite iso_year_four_digits by done.
  change ("-" +:+ pad 2 m +:+ "-" +:+ pad 2 d)
    with (String "-" (pad 2 m +:+ String "-" (pad 2 d))).
  rewrite split_app by (by apply occurs_pad).
  rewrite split_app by (by apply occurs_pad).
  rewrite split_free by (by apply occurs_pad).
  rewrite !length_pad. cbn [Nat.eqb andb].
  rewrite !decimal_pad by (cbn; lia). done.
Qed.

End DateFacts.

(** ** Every run of the two scripts, by cases *)

(** Unfolds the monad and the two scripts down to the oracles. *)
Ltac run_step :=
  cbv [run exit_code trace
       GitRepublish.main GitRepublish.publish GitRepublish.on_error
       ApiUpload.main ApiUpload.uploadFile ApiUpload.on_error
       bind ret emit try_catch process_env console_error console_log
       process_exit process_cwd execSync new_Date toLocaleDateString
       path_join readFileSync_base64 createOrUpdateFileContents auth
       fst snd];
  cbn [app].

Section GitRuns.
Variable w : World.

Let token : option string := env w !! "GITHUB_TOKEN".
Let date : string := locale_date w "ru-RU" (date_of (local (now w))).
Let cmds : list string := GitRepublish.git_commands (interpolate token) date.
Let tr : Trace := trace GitRepublish.main w.

(** The git script ends in one of three ways: the token is missing; all
    eight commands succeed; or the commands before the [k]-th succeed and the
    [k]-th fails. *)
Lemma git_run_cases :
  (truthy token = false /\ exit_code GitRepublish.main w = 1 /\
   tr = [ConsoleError [AStr GitRepublish.missing_token_message]])
  \/ (truthy token = true /\ exit_code GitRepublish.main w = 0 /\
      execs tr = succeeded cmds /\ stderr tr = [] /\ failures tr = [])
  \/ (truthy token = true /\ exit_code GitRepublish.main w = 1 /\
      exists (k : nat) (c : string) (e : JsError),
        cmds !! k = Some c /\
        execs tr = succeeded (take k cmds) ++ [(c, Some e)] /\
        stderr tr = [[AStr "Ошибка при публикации:"; AStr (toString e)]] /\
        failures tr = [e]).
Proof.
  subst tr cmds. unfold GitRepublish.git_commands. run_step. fold token date.
  destruct (truthy token) eqn:Htok; cbn [negb]; run_step; [|by left].
  right.
  repeat match goal with
  | |- context [exec_oracle w ?t ?c] =>
      let E := fresh "E" in destruct (exec_oracle w t c) as [?e|] eqn:E; run_step
  end.
  all: try (right; split; [done|]; split; [done|]).
  - by exists 0%nat, GitRepublish.cmd_init, e.
  - by exists 1%nat, GitRepublish.cmd_checkout, e.
  - by exists 2%nat, GitRepublish.cmd_config_email, e.
  - by exists 3%nat, GitRepublish.cmd_config_name, e.
  - by exists 4%nat, GitRepublish.cmd_add, e.
  - by exists 5%nat, (GitRepublish.cmd_commit date), e.
  - by exists 6%nat, (GitRepublish.cmd_remote (interpolate token)), e.
  - by exists 7%nat, GitRepublish.cmd_push, e.
  - by left.
Qed.

(** The git script reads no file and sends no API request. *)
Lemma git_no_file_no_request : reads tr = [] /\ requests tr = [].
Proof.
  subst tr. run_step. fold token.
  destruct (truthy token); cbn [negb]; run_step; [|done].
  repeat match goal with
  | |- context [exec_oracle w ?t ?c] =>
      destruct (exec_oracle w t c); run_step
  end; done.
Qed.

End GitRuns.

Section ApiRuns.
Variable w : World.

Let token : option string := env w !! "GITHUB_TOKEN".
Let path : string := artifact_path w.

(** [publish.js] ends in one of three ways: the read fails; the read
    succeeds and the request fails; both succeed. *)
Lemma api_run_cases :
  (exists e, fs_oracle w [] path = inl e /\
     run ApiUpload.main w =
       (1, [ReadFileSync path (inl e); ConsoleError [AStr "Upload failed:"; AErr e]]))
  \/ (exists bytes,
        fs_oracle w [] path = inr bytes /\
        let req := ApiUpload.payload (Base64.encode bytes) (ApiUpload.date_stamp (now w)) in
        let read := ReadFileSync path (inr bytes) in
        (exists e, api_oracle w [read] token req = Some e /\
           run ApiUpload.main w =
             (1, [read; CreateOrUpdateFileContents token req (Some e);
                  ConsoleError [AStr "Upload failed:"; AErr e]]))
        \/ (api_oracle w [read] token req = None /\
            run ApiUpload.main w =
              (0, [read; CreateOrUpdateFileContents token req None;
                   ConsoleLog [AStr "File uploaded successfully!"]]))).
Proof.
  subst path. unfold artifact_path. run_step. fold token.
  destruct (fs_oracle w [] _) as [e|bytes] eqn:Hfs; run_step.
  - left. by exists e.
  - right. exists bytes. split; [done|]. cbv zeta.
    destruct (api_oracle w _ token _) as [e|] eqn:Hapi; run_step.
    + left. by exists e.
    + by right.
Qed.

End ApiRuns.

(** ** The git script: its command sequence *)

Lemma commands_succeeded (l : list string) : fst <$> succeeded l = l.
Proof.
  unfold succeeded. rewrite <- list_fmap_compose. apply list_fmap_id.
Qed.

Lemma succeeded_lookup (l : list string) (i : nat) (c : string) (r : option JsError) :
  succeeded l !! i = Some (c, r) -> r = None.
Proof.
  unfold succeeded. rewrite list_lookup_fmap.
  destruct (l !! i); cbn; congruence.
Qed.

(** C2: with the token set, the git script invokes exactly these commands in
    this order: git init; checkout of the orphan branch gh-pages; the two
    config commands with the fixed bot email and name; git add of the working
    directory; the commit with the date-stamped message; remote add with the
    URL https://<token>@github.com/BuildersSC/Krevetka.git; the forced push of
    gh-pages.  Every run invokes a prefix of this sequence, a run that exits
    with 0 invokes all of it, and no run reads a file or sends an API
    request. *)
Theorem git_command_sequence (w : World) (tok : string) :
  env w !! "GITHUB_TOKEN" = Some tok ->
  truthy (Some tok) = true ->
  let date := locale_date w "ru-RU" (date_of (local (now w))) in
  let sequence :=
    [ "git init";
      "git checkout --orphan gh-pages";
      "git config --local user.email " +:+ dq +:+
        "github-actions[bot]@users.noreply.github.com" +:+ dq;
      "git config --local user.name " +:+ dq +:+ "github-actions[bot]" +:+ dq;
      "git add .";
      "git commit -m " +:+ dq +:+ "Обновление чейнджлога: " +:+ date +:+ dq;
      "git remote add origin https://" +:+ tok +:+ "@github.com/BuildersSC/Krevetka.git";
      "git push -f origin gh-pages" ] in
  commands (trace GitRepublish.main w) `prefix_of` sequence /\
  (exit_code GitRepublish.main w = 0 ->
   commands (trace GitRepublish.main w) = sequence) /\
  reads (trace GitRepublish.main w) = [] /\
  requests (trace GitRepublish.main w) = [].
Proof.
  intros Henv Htok date sequence.
  assert (Hseq : GitRepublish.git_commands (interpolate (env w !! "GITHUB_TOKEN"))
                   (locale_date w "ru-RU" (date_of (local (now w)))) = sequence)
    by (rewrite Henv; reflexivity).
  destruct (git_no_file_no_request w) as [Hreads Hreqs].
  destruct (git_run_cases w) as [(Hfalsy & _)|[(_ & Hexit & Hexecs & _)|(_ & Hexit & k & c & e & Hk & Hexecs & _)]].
  - rewrite Henv in Hfalsy. congruence.
  - assert (Hcmds : commands (trace GitRepublish.main w) = sequence).
    { unfold commands. rewrite Hexecs, commands_succeeded. exact Hseq. }
    rewrite Hcmds. done.
  - rewrite Hseq in Hk, Hexecs.
    assert (Hcmds : commands (trace GitRepublish.main w) = take (S k) sequence).
    { rewrite (take_S_r _ _ _ Hk). unfold commands.
      rewrite Hexecs, fmap_app, commands_succeeded. reflexivity. }
    rewrite Hcmds. split; [apply prefix_take|]. split; [|done].
    intros H0. rewrite H0 in Hexit. discriminate.
Qed.

Lemma git_command_sequence_witness :
  commands (trace GitRepublish.main Examples.healthy) =
    GitRepublish.git_commands "ghp_example" "02.11.2026".
Proof.
  apply (git_command_sequence Examples.healthy "ghp_example");
    vm_compute; reflexivity.
Defined.

(** ** The git script: a failing step ends the run *)

(** C4: when the invocation at step [k] of the git script fails, it is the
    last invocation of the run: the run made exactly the first [k+1] commands
    of the sequence, each once, all before it succeeded, nothing was
    retried, the error text went to standard error and the exit status is
    1. *)
Theorem git_failure_aborts (w : World) (k : nat) (c : string) (e : JsError) :
  execs (trace GitRepublish.main w) !! k = Some (c, Some e) ->
  let token := env w !! "GITHUB_TOKEN" in
  let date := locale_date w "ru-RU" (date_of (local (now w))) in
  length (execs (trace GitRepublish.main w)) = S k /\
  commands (trace GitRepublish.main w) =
    take (S k) (GitRepublish.git_commands (interpolate token) date) /\
  (forall i c' r, execs (trace GitRepublish.main w) !! i = Some (c', r) ->
     (i < k)%nat -> r = None) /\
  stderr (trace GitRepublish.main w) =
    [[AStr "Ошибка при публикации:"; AStr (toString e)]] /\
  exit_code GitRepublish.main w = 1.
Proof.
  intros Hfail token date.
  destruct (git_run_cases w) as [(_ & _ & Htr)|[(_ & _ & Hexecs & _)|(_ & Hexit & k' & c' & e' & Hk & Hexecs & Herr & _)]].
  - rewrite Htr in Hfail. discriminate.
  - rewrite Hexecs in Hfail. apply succeeded_lookup in Hfail. discriminate.
  - fold token date in Hk, Hexecs.
    set (cmds := GitRepublish.git_commands (interpolate token) date) in *.
    assert (Hlen : length (succeeded (take k' cmds)) = k').
    { unfold succeeded. rewrite length_fmap. apply length_take_le.
      apply lookup_lt_Some in Hk. lia. }
    assert (k = k' /\ e = e') as [-> ->].
    { rewrite Hexecs in Hfail. destruct (decide (k < k')%nat) as [Hlt|Hge].
      - rewrite lookup_app_l in Hfail by lia.
        apply succeeded_lookup in Hfail. discriminate.
      - rewrite lookup_app_r in Hfail by lia. rewrite Hlen in Hfail.
        destruct (k - k')%nat as [|n] eqn:Hd; cbn in Hfail; [|discriminate].
        split; [lia|congruence]. }
    repeat split; try done.
    + rewrite Hexecs, length_app, Hlen. cbn. lia.
    + rewrite (take_S_r _ _ _ Hk). unfold commands.
      rewrite Hexecs, fmap_app, commands_succeeded. reflexivity.
    + intros i c0 r Hi Hlt. rewrite Hexecs in Hi.
      rewrite lookup_app_l in Hi by lia. by apply succeeded_lookup in Hi.
Qed.

Lemma git_failure_aborts_witness :
  execs (trace GitRepublish.main Scenarios.add_fails) !! 4%nat =
    Some ("git add .", Some Scenarios.add_rejected) /\
  length (execs (trace GitRepublish.main Scenarios.add_fails)) = 5%nat /\
  commands (trace GitRepublish.main Scenarios.add_fails) =
    [ GitRepublish.cmd_init; GitRepublish.cmd_checkout; GitRepublish.cmd_config_email;
      GitRepublish.cmd_config_name; GitRepublish.cmd_add ] /\
  exit_code GitRepublish.main Scenarios.add_fails = 1.
Proof.
  assert (Hfail : execs (trace GitRepublish.main Scenarios.add_fails) !! 4%nat =
                    Some ("git add .", Some Scenarios.add_rejected))
    by (vm_compute; reflexivity).
  destruct (git_failure_aborts Scenarios.add_fails 4 "git add ." Scenarios.add_rejected Hfail)
    as (Hlen & Hcmds & _ & _ & Hexit).
  split; [exact Hfail|]. split; [exact Hlen|]. split; [exact Hcmds|exact Hexit].
Defined.

(** ** [publish.js]: the request *)

Lemma payload_fields (content : string) (date : option string) :
  let p := ApiUpload.payload content date in
  p !! "owner" = Some "BuildersSC" /\
  p !! "repo" = Some "Krevetka" /\
  p !! "path" = Some "docs/index.html" /\
  p !! "branch" = Some "gh-pages" /\
  p !! "content" = Some content /\
  p !! "message" = Some (ApiUpload.message date) /\
  p !! "sha" = None /\
  dom p = {[ "owner"; "repo"; "path"; "message"; "content"; "branch" ]}.
Proof.
  cbv zeta. unfold ApiUpload.payload. repeat split; by simplify_map_eq.
Qed.

(** The requests of a run: none when the read fails, otherwise the one
    request built from the file and the UTC date. *)
Lemma api_requests (w : World) :
  requests (trace ApiUpload.main w) =
    match fs_oracle w [] (artifact_path w) with
    | inl _ => []
    | inr bytes =>
        [(env w !! "GITHUB_TOKEN",
          ApiUpload.payload (Base64.encode bytes)
            (Some (iso_date (date_of (utc (now w))))))]
    end.
Proof.
  unfold trace.
  destruct (api_run_cases w) as [(e & -> & ->)|(bytes & -> & [(e & _ & ->)|(_ & ->)])];
    cbn; rewrite ?date_stamp_iso; reflexivity.
Qed.

(** C5: a run of publish.js that exits with 0 has issued exactly one
    create-or-update-file-contents request, for owner BuildersSC, repository
    Krevetka, path docs/index.html, branch gh-pages, carrying the base64 text
    of the bytes it read and the message stamped with the UTC date. *)
Theorem api_success_single_request (w : World) :
  exit_code ApiUpload.main w = 0 ->
  exists (bytes : list byte) (p : Params),
    fs_oracle w [] (artifact_path w) = inr bytes /\
    requests (trace ApiUpload.main w) = [(env w !! "GITHUB_TOKEN", p)] /\
    p !! "owner" = Some "BuildersSC" /\
    p !! "repo" = Some "Krevetka" /\
    p !! "path" = Some "docs/index.html" /\
    p !! "branch" = Some "gh-pages" /\
    p !! "content" = Some (Base64.encode bytes) /\
    p !! "message" =
      Some ("Update ChangeLog on " +:+ iso_date (date_of (utc (now w)))).
Proof.
  intros Hexit. pose proof (api_requests w) as Hreq.
  destruct (api_run_cases w) as [(e & _ & Hrun)|(bytes & Hfs & [(e & _ & Hrun)|(_ & Hrun)])];
    try (unfold exit_code in Hexit; rewrite Hrun in Hexit; discriminate).
  rewrite Hfs in Hreq. eexists bytes, _. split; [exact Hfs|]. split; [exact Hreq|].
  destruct (payload_fields (Base64.encode bytes)
              (Some (iso_date (date_of (utc (now w))))))
    as (? & ? & ? & ? & ? & ? & _).
  done.
Qed.

Lemma api_success_single_request_witness :
  exists (bytes : list byte) (p : Params),
    fs_oracle Examples.healthy [] (artifact_path Examples.healthy) = inr bytes /\
    requests (trace ApiUpload.main Examples.healthy) = [(Some "ghp_example", p)] /\
    p !! "content" = Some "SGkh" /\
    p !! "message" = Some "Update ChangeLog on 2026-11-01".
Proof.
  destruct (api_success_single_request Examples.healthy)
    as (bytes & p & Hfs & Hreq & _ & _ & _ & _ & Hcontent & Hmessage).
  - vm_compute. reflexivity.
  - exists bytes, p. split; [exact Hfs|]. split; [exact Hreq|].
    vm_compute in Hfs. injection Hfs as <-. split; [exact Hcontent|exact Hmessage].
Defined.

(** ** [publish.js]: a missing file *)

(** C6: when docs/index.html cannot be read, publish.js fails with the
    file system's error: the error is printed to standard error, the exit
    status is 1 and no request is sent.  This holds whether or not the
    credential is set. *)
Theorem api_missing_file (w : World) (e : JsError) :
  fs_oracle w [] (artifact_path w) = inl e ->
  exit_code ApiUpload.main w = 1 /\
  trace ApiUpload.main w =
    [ReadFileSync (artifact_path w) (inl e);
     ConsoleError [AStr "Upload failed:"; AErr e]] /\
  failures (trace ApiUpload.main w) = [e] /\
  requests (trace ApiUpload.main w) = [].
Proof.
  intros Hfs. unfold exit_code, trace.
  destruct (api_run_cases w) as [(e' & Hfs' & ->)|(bytes & Hfs' & _)].
  - rewrite Hfs in Hfs'. injection Hfs' as <-. done.
  - rewrite Hfs in Hfs'. discriminate.
Qed.

Lemma api_missing_file_witness :
  env Examples.missing_file !! "GITHUB_TOKEN" = Some "ghp_example" /\
  exit_code ApiUpload.main Examples.missing_file = 1 /\
  requests (trace ApiUpload.main Examples.missing_file) = [].
Proof.
  destruct (api_missing_file Examples.missing_file Examples.enoent)
    as (Hexit & _ & _ & Hreq).
  - reflexivity.
  - split; [reflexivity|]. split; [exact Hexit|exact Hreq].
Defined.

(** ** The unset token *)

(** What publish.js does with GITHUB_TOKEN unset: it reads the file first,
    any request it sends carries no authentication, and its exit status
    follows the failures of the read and of the request alone. *)
Lemma api_without_token (w : World) :
  env w !! "GITHUB_TOKEN" = None ->
  (exists r, reads (trace ApiUpload.main w) = [ReadFileSync (artifact_path w) r]) /\
  (forall auth p, (auth, p) ∈ requests (trace ApiUpload.main w) -> auth = None) /\
  (exit_code ApiUpload.main w = 1 <-> failures (trace ApiUpload.main w) <> []) /\
  (exit_code ApiUpload.main w = 0 <-> failures (trace ApiUpload.main w) = []).
Proof.
  intros Henv. split; [|split].
  - unfold trace.
    destruct (api_run_cases w) as [(e & _ & ->)|(bytes & _ & [(e & _ & ->)|(_ & ->)])];
      eexists; reflexivity.
  - intros auth p Hin. rewrite api_requests in Hin.
    destruct (fs_oracle w [] (artifact_path w)); [by apply elem_of_nil in Hin|].
    apply list_elem_of_singleton in Hin. rewrite Henv in Hin. congruence.
  - unfold exit_code, trace.
    destruct (api_run_cases w) as [(e & _ & ->)|(bytes & _ & [(e & _ & ->)|(_ & ->)])];
      cbn; split; split; intros; done.
Qed.

(** C1: with GITHUB_TOKEN unset every run of the git script prints its
    configuration error to standard error and exits with 1, without invoking
    a subprocess, reading a file or sending a request.  publish.js does not:
    in the world [Examples.no_token] (token unset, file present, API
    refusing anonymous requests) it reads docs/index.html and sends the
    request, without authentication, before the API's refusal makes it exit
    with 1. *)
Theorem unset_token_checked_by_git_only :
  (forall w, env w !! "GITHUB_TOKEN" = None ->
     aborts_before_acting GitRepublish.main w /\
     trace GitRepublish.main w =
       [ConsoleError [AStr "Ошибка: GITHUB_TOKEN не установлен"]]) /\
  (env Examples.no_token !! "GITHUB_TOKEN" = None /\
   trace ApiUpload.main Examples.no_token =
     [ReadFileSync "docs/index.html" (inr Examples.artifact);
      CreateOrUpdateFileContents None
        (ApiUpload.payload "SGkh" (Some "2026-11-01")) (Some Examples.unauthorized);
      ConsoleError [AStr "Upload failed:"; AErr Examples.unauthorized]] /\
   ~ aborts_before_acting ApiUpload.main Examples.no_token).
Proof.
  split.
  - intros w Henv.
    destruct (git_run_cases w) as [(_ & Hexit & Htr)|[(Htok & _)|(Htok & _)]];
      try (rewrite Henv in Htok; discriminate).
    split; [|exact Htr]. unfold aborts_before_acting. rewrite Hexit, Htr. done.
  - split; [reflexivity|]. split; [vm_compute; reflexivity|].
    intros (_ & _ & _ & Hreads & _). vm_compute in Hreads. discriminate.
Qed.

(** ** Exit codes and diagnostics *)


(** ** Commit messages *)

(** The commands of any run of the git script are an initial part of the
    sequence. *)
Lemma git_commands_take (w : World) :
  exists n : nat,
    commands (trace GitRepublish.main w) =
      take n (GitRepublish.git_commands (interpolate (env w !! "GITHUB_TOKEN"))
                (locale_date w "ru-RU" (date_of (local (now w))))).
Proof.
  destruct (git_run_cases w) as [(_ & _ & Htr)|[(_ & _ & Hexecs & _)|(_ & _ & k & c & e & Hk & Hexecs & _)]].
  - exists 0%nat. rewrite Htr. reflexivity.
  - exists 8%nat. unfold commands. rewrite Hexecs, commands_succeeded. reflexivity.
  - exists (S k). rewrite (take_S_r _ _ _ Hk). unfold commands.
    rewrite Hexecs, fmap_app, commands_succeeded. reflexivity.
Qed.

(** The sixth command of a run, when the run gets that far, is the commit. *)
Lemma git_commit_command (w : World) (c : string) :
  commands (trace GitRepublish.main w) !! 5%nat = Some c ->
  c = GitRepublish.cmd_commit (locale_date w "ru-RU" (date_of (local (now w)))).
Proof.
  destruct (git_commands_take w) as [n ->].
  intros [Hc _]%lookup_take_Some. cbn in Hc. congruence.
Qed.

(** The message of any request publish.js sends. *)
Lemma api_request_message (w : World) (auth : option string) (p : Params) :
  (auth, p) ∈ requests (trace ApiUpload.main w) ->
  p !! "message" = Some ("Update ChangeLog on " +:+ iso_date (date_of (utc (now w)))).
Proof.
  rewrite api_requests.
  destruct (fs_oracle w [] (artifact_path w)) as [e|bytes];
    [intros Hin; by apply elem_of_nil in Hin|].
  intros Hin%list_elem_of_singleton. injection Hin as _ ->.
  by destruct (payload_fields (Base64.encode bytes)
                 (Some (iso_date (date_of (utc (now w))))))
       as (_ & _ & _ & _ & _ & ? & _).
Qed.

(** The sixth command of a run that exits with 0. *)
Lemma git_commit_reached (w : World) :
  exit_code GitRepublish.main w = 0 ->
  commands (trace GitRepublish.main w) !! 5%nat =
    Some (GitRepublish.cmd_commit (locale_date w "ru-RU" (date_of (local (now w))))).
Proof.
  intros Hexit.
  destruct (git_run_cases w) as [(_ & H1 & _)|[(_ & _ & Hexecs & _)|(_ & H1 & _)]];
    try (rewrite Hexit in H1; discriminate).
  unfold commands. rewrite Hexecs, commands_succeeded. reflexivity.
Qed.

(** C7, as stated, fails in three ways.  In the year 10000 toISOString
    writes the year with a sign and six digits, so the message of publish.js
    carries no date of the form YYYY-MM-DD.  No one calendar date decides
    both messages: two runs on the same local day can fall on different UTC
    days and then publish.js stamps them differently, and two runs on the
    same UTC day can fall on different local days and then the git script
    stamps them differently.  And on the same day, a host without ru-RU
    locale data renders the date of the git message differently. *)
Lemma commit_message_counterexamples :
  (requests (trace ApiUpload.main Examples.year_10000) =
     [(Some "ghp_example", ApiUpload.payload "SGkh" (Some "+010000-01-01"))] /\
   ApiUpload.payload "SGkh" (Some "+010000-01-01") !! "message" =
     Some "Update ChangeLog on +010000-01-01" /\
   Documented.parse_date "+010000-01-01" = None) /\
  (date_of (local (now Scenarios.same_local_day)) =
     date_of (local (now Examples.healthy)) /\
   requests (trace ApiUpload.main Examples.healthy) =
     [(Some "ghp_example", ApiUpload.payload "SGkh" (Some "2026-11-01"))] /\
   requests (trace ApiUpload.main Scenarios.same_local_day) =
     [(Some "ghp_example", ApiUpload.payload "SGkh" (Some "2026-11-02"))] /\
   ApiUpload.payload "SGkh" (Some "2026-11-01") !! "message" <>
     ApiUpload.payload "SGkh" (Some "2026-11-02") !! "message") /\
  (date_of (utc (now Scenarios.same_utc_day)) = date_of (utc (now Examples.healthy)) /\
   commands (trace GitRepublish.main Examples.healthy) !! 5%nat =
     Some ("git commit -m " +:+ dq +:+ "Обновление чейнджлога: 02.11.2026" +:+ dq) /\
   commands (trace GitRepublish.main Scenarios.same_utc_day) !! 5%nat =
     Some ("git commit -m " +:+ dq +:+ "Обновление чейнджлога: 01.11.2026" +:+ dq)) /\
  (now Scenarios.other_locale = now Examples.healthy /\
   commands (trace GitRepublish.main Scenarios.other_locale) !! 5%nat =
     Some ("git commit -m " +:+ dq +:+ "Обновление чейнджлога: 11/2/2026" +:+ dq)).
Proof.
  split; [|split; [|split]].
  - split; [rewrite api_requests; reflexivity|]. split; reflexivity.
  - split; [reflexivity|]. split; [rewrite api_requests; reflexivity|].
    split; [rewrite api_requests; reflexivity|]. vm_compute. discriminate.
  - split; [reflexivity|]. split; vm_compute; reflexivity.
  - split; [reflexivity|]. vm_compute. reflexivity.
Qed.

(** C7, amended: the commit message of the git script is the prefix, a
    colon and the host's ru-RU rendering of the local date, for every date:
    every run that reaches the commit uses it, every run that exits with 0
    reaches the commit, and two runs with the same local date and the same
    locale data commit with the same message.  The commit message of
    publish.js is Update ChangeLog on followed by the date part of
    toISOString for the UTC date, for every date: every run that read the
    file sends it, and two runs with the same UTC date send the same
    message.  For a UTC date whose year lies in 0..9999 that date part is
    YYYY-MM-DD and reads back as the date. *)
Theorem commit_messages_embed_date (w1 w2 : World) :
  let local1 := date_of (local (now w1)) in
  let utc1 := date_of (utc (now w1)) in
  let git_commit :=
    "git commit -m " +:+ dq +:+
    GitRepublish.commit_prefix +:+ ": " +:+ locale_date w1 "ru-RU" local1 +:+ dq in
  let api_message := "Update ChangeLog on " +:+ iso_date utc1 in
  (forall c, commands (trace GitRepublish.main w1) !! 5%nat = Some c -> c = git_commit) /\
  (exit_code GitRepublish.main w1 = 0 ->
   commands (trace GitRepublish.main w1) !! 5%nat = Some git_commit) /\
  (date_of (local (now w2)) = local1 -> locale_date w2 = locale_date w1 ->
   forall c1 c2,
     commands (trace GitRepublish.main w1) !! 5%nat = Some c1 ->
     commands (trace GitRepublish.main w2) !! 5%nat = Some c2 ->
     c2 = c1) /\
  (forall bytes, fs_oracle w1 [] (artifact_path w1) = inr bytes ->
     exists p,
       requests (trace ApiUpload.main w1) = [(env w1 !! "GITHUB_TOKEN", p)] /\
       p !! "message" = Some api_message) /\
  (date_of (utc (now w2)) = utc1 ->
   forall a1 p1 a2 p2,
     (a1, p1) ∈ requests (trace ApiUpload.main w1) ->
     (a2, p2) ∈ requests (trace ApiUpload.main w2) ->
     p2 !! "message" = p1 !! "message") /\
  (Documented.four_digit_year utc1 -> Documented.valid_month_day utc1 ->
   iso_date utc1 =
     Text.pad 4 (year utc1) +:+ "-" +:+ Text.pad 2 (month utc1) +:+ "-" +:+
     Text.pad 2 (day utc1) /\
   Documented.parse_date (iso_date utc1) = Some utc1).
Proof.
  intros local1 utc1 git_commit api_message.
  split; [|split; [|split; [|split; [|split]]]].
  - intros c Hc. by apply git_commit_command in Hc.
  - apply git_commit_reached.
  - intros Hlocal Hfmt c1 c2 Hc1 Hc2.
    apply git_commit_command in Hc1, Hc2. rewrite Hc1, Hc2, Hfmt, Hlocal. reflexivity.
  - intros bytes Hfs. rewrite api_requests, Hfs. eexists. split; [reflexivity|].
    by destruct (payload_fields (Base64.encode bytes) (Some (iso_date utc1)))
         as (_ & _ & _ & _ & _ & ? & _).
  - intros Hutc a1 p1 a2 p2 Hin1 Hin2.
    apply api_request_message in Hin1, Hin2. rewrite Hin1, Hin2, Hutc. reflexivity.
  - intros Hyear Hvalid. split; [|by apply parse_iso_date].
    unfold iso_date. by rewrite iso_year_four_digits.
Qed.

Lemma commit_messages_embed_date_witness :
  commands (trace GitRepublish.main Examples.healthy) !! 5%nat =
    Some ("git commit -m " +:+ dq +:+ "Обновление чейнджлога: 02.11.2026" +:+ dq) /\
  commands (trace GitRepublish.main Examples.same_day) !! 5%nat =
    commands (trace GitRepublish.main Examples.healthy) !! 5%nat /\
  (exists p,
     requests (trace ApiUpload.main Examples.healthy) = [(Some "ghp_example", p)] /\
     p !! "message" = Some "Update ChangeLog on 2026-11-01") /\
  Documented.parse_date "2026-11-01" = Some (mkCal 2026 11 1).
Proof.
  pose proof (commit_messages_embed_date Examples.healthy Examples.same_day) as H.
  cbv zeta in H. destruct H as (_ & Hrun & Hsame & Hapi & _ & Hfmt).
  pose proof (commit_messages_embed_date Examples.same_day Examples.healthy) as H'.
  cbv zeta in H'. destruct H' as (_ & Hrun' & _).
  assert (H1 := Hrun eq_refl). assert (H2 := Hrun' eq_refl).
  split; [exact H1|]. split; [|split].
  - rewrite H1, H2. exact (f_equal Some (Hsame eq_refl eq_refl _ _ H1 H2)).
  - exact (Hapi Examples.artifact eq_refl).
  - apply Hfmt.
    + unfold Documented.four_digit_year. cbn. lia.
    + unfold Documented.valid_month_day. cbn. lia.
Defined.

(** ** [publish.js]: the content survives the encoding *)

(** C8: a run of publish.js that read the bytes [bs] sends one request whose
    content is the base64 text of [bs], and decoding that text gives exactly
    [bs] back; so two runs over an unchanged file send the same content,
    which decodes to the same bytes. *)
Theorem base64_round_trip (w1 w2 : World) (bs : list byte) :
  fs_oracle w1 [] (artifact_path w1) = inr bs ->
  fs_oracle w2 [] (artifact_path w2) = inr bs ->
  exists p1 p2 content,
    requests (trace ApiUpload.main w1) = [(env w1 !! "GITHUB_TOKEN", p1)] /\
    requests (trace ApiUpload.main w2) = [(env w2 !! "GITHUB_TOKEN", p2)] /\
    p1 !! "content" = Some content /\
    p2 !! "content" = Some content /\
    content = Base64.encode bs /\
    Base64.decode content = Some bs.
Proof.
  intros Hfs1 Hfs2. rewrite !api_requests, Hfs1, Hfs2.
  eexists _, _, (Base64.encode bs).
  split; [reflexivity|]. split; [reflexivity|]. split; [|split; [|split]].
  - by destruct (payload_fields (Base64.encode bs)
                   (Some (iso_date (date_of (utc (now w1))))))
         as (_ & _ & _ & _ & ? & _).
  - by destruct (payload_fields (Base64.encode bs)
                   (Some (iso_date (date_of (utc (now w2))))))
         as (_ & _ & _ & _ & ? & _).
  - reflexivity.
  - apply decode_encode.
Qed.

Lemma base64_round_trip_witness :
  exists p1 p2 content,
    requests (trace ApiUpload.main Examples.healthy) = [(Some "ghp_example", p1)] /\
    requests (trace ApiUpload.main Examples.same_day) = [(Some "ghp_example", p2)] /\
    p1 !! "content" = Some content /\
    p2 !! "content" = Some content /\
    content = "SGkh" /\
    Base64.decode content = Some [x48; x69; x21]%byte.
Proof.
  exact (base64_round_trip Examples.healthy Examples.same_day Examples.artifact
           eq_refl eq_refl).
Defined.

(** ** [publish.js]: no blob SHA *)

(** C9: every request publish.js sends has exactly the fields owner, repo,
    path, message, content and branch, hence no sha; a run sends at most
    one request, preceded only by the file read, so nothing resolves the
    SHA of the existing file.  Against an API that turns down requests
    without a SHA the run therefore fails whenever the file could be read:
    the request only ever has the form of a create. *)
Theorem api_payload_has_no_sha (w : World) :
  (forall auth p, (auth, p) ∈ requests (trace ApiUpload.main w) ->
     dom p = {[ "owner"; "repo"; "path"; "message"; "content"; "branch" ]} /\
     p !! "sha" = None) /\
  (length (requests (trace ApiUpload.main w)) <= 1)%nat /\
  (exists r rest,
     trace ApiUpload.main w = ReadFileSync (artifact_path w) r :: rest /\
     (length rest <= 2)%nat) /\
  (demands_sha w ->
   forall bytes, fs_oracle w [] (artifact_path w) = inr bytes ->
     exit_code ApiUpload.main w = 1 /\
     exists e, failures (trace ApiUpload.main w) = [e]).
Proof.
  split; [|split; [|split]].
  - intros auth p Hin. rewrite api_requests in Hin.
    destruct (fs_oracle w [] (artifact_path w)) as [e|bytes];
      [by apply elem_of_nil in Hin|].
    apply list_elem_of_singleton in Hin. injection Hin as _ ->.
    by destruct (payload_fields (Base64.encode bytes)
                   (Some (iso_date (date_of (utc (now w))))))
         as (_ & _ & _ & _ & _ & _ & ? & ?).
  - rewrite api_requests. destruct (fs_oracle w [] (artifact_path w)); cbn; lia.
  - unfold trace.
    destruct (api_run_cases w) as [(e & _ & ->)|(bytes & _ & [(e & _ & ->)|(_ & ->)])];
      eexists _, _; (split; [reflexivity|cbn; lia]).
  - intros Hsha bytes Hfs. unfold exit_code, trace.
    destruct (api_run_cases w) as [(e & Hfs' & _)|(bytes' & _ & [(e & _ & ->)|(Hok & _)])].
    + rewrite Hfs in Hfs'. discriminate.
    + cbn. split; [reflexivity|]. by exists e.
    + destruct (Hsha [ReadFileSync (artifact_path w) (inr bytes')]
                  (env w !! "GITHUB_TOKEN")
                  (ApiUpload.payload (Base64.encode bytes')
                     (ApiUpload.date_stamp (now w)))) as [e He].
      * by destruct (payload_fields (Base64.encode bytes')
                       (ApiUpload.date_stamp (now w)))
             as (_ & _ & _ & _ & _ & _ & ? & _).
      * rewrite Hok in He. discriminate.
Qed.

(** An API that demands the SHA refuses the upload of [Hi!]. *)
Example existing_file_refused :
  demands_sha Examples.existing_file /\
  exit_code ApiUpload.main Examples.existing_file = 1 /\
  failures (trace ApiUpload.main Examples.existing_file) = [Examples.sha_missing].
Proof.
  split.
  - intros tr auth p Hp. cbn. unfold Examples.api_demands_sha. rewrite Hp. by eexists.
  - split; vm_compute; reflexivity.
Qed.

(** ** [publish.js]: the request is a function of its inputs *)

(** C10: two runs of publish.js with the same credential, the same file
    content (or the same read error) and the same UTC calendar date send the
    same requests: same authentication, same payload. *)
Theorem api_request_deterministic (w1 w2 : World) :
  env w1 !! "GITHUB_TOKEN" = env w2 !! "GITHUB_TOKEN" ->
  fs_oracle w1 [] (artifact_path w1) = fs_oracle w2 [] (artifact_path w2) ->
  date_of (utc (now w1)) = date_of (utc (now w2)) ->
  requests (trace ApiUpload.main w1) = requests (trace ApiUpload.main w2).
Proof.
  intros Henv Hfs Hdate. rewrite !api_requests, Henv, Hfs, Hdate. reflexivity.
Qed.

Lemma api_request_deterministic_witness :
  requests (trace ApiUpload.main Examples.healthy) =
    requests (trace ApiUpload.main Examples.same_day) /\
  utc (now Examples.healthy) <> utc (now Examples.same_day).
Proof.
  split.
  - apply (api_request_deterministic Examples.healthy Examples.same_day); reflexivity.
  - discriminate.
Defined.

(** * Further properties of the two scripts *)

(** ** The git script: the token guard *)

Lemma truthy_false (v : option string) :
  truthy v = false <-> v = None \/ v = Some EmptyString.
Proof.
  destruct v as [s|]; cbn.
  - rewrite negb_false_iff, String.eqb_eq. split; [intros ->; by right|].
    intros [?|[= ->]]; done.
  - split; [by left|done].
Qed.

(** X1: the git script stops at its guard exactly when GITHUB_TOKEN is unset
    or empty: then, and only then, the whole run is the one configuration
    error and status 1.  With any other token the run begins with git
    init. *)
Theorem git_token_guard (w : World) :
  (run GitRepublish.main w =
     (1, [ConsoleError [AStr "Ошибка: GITHUB_TOKEN не установлен"]])
   <-> env w !! "GITHUB_TOKEN" = None \/ env w !! "GITHUB_TOKEN" = Some EmptyString) /\
  (truthy (env w !! "GITHUB_TOKEN") = true ->
   exists r rest, trace GitRepublish.main w = ExecSync "git init" r :: rest).
Proof.
  split.
  - rewrite <- truthy_false. split.
    + intros Hrun.
      destruct (git_run_cases w) as [(Htok & _)|[(_ & _ & Hexecs & _)|(_ & _ & k & c & e & _ & Hexecs & _)]];
        [exact Htok| |]; unfold trace in Hexecs; rewrite Hrun in Hexecs; cbn in Hexecs.
      * discriminate.
      * by destruct (succeeded (take k _)).
    + intros Htok.
      destruct (git_run_cases w) as [(_ & Hexit & Htr)|[(Htok' & _)|(Htok' & _)]];
        try congruence.
      unfold exit_code, trace in *. destruct (run GitRepublish.main w) as [code tr].
      cbn in *. by subst.
  - intros Htok. unfold trace. run_step. rewrite Htok. cbn [negb]. run_step.
    repeat match goal with
    | |- context [exec_oracle w ?t ?c] => destruct (exec_oracle w t c); run_step
    end; eexists _, _; reflexivity.
Qed.

(** ** The git script: no command twice, the push last *)

(** Two commands of the sequence differ within their fixed leading text. *)
Ltac differ H :=
  cbv [GitRepublish.cmd_init GitRepublish.cmd_checkout GitRepublish.cmd_config_email
       GitRepublish.cmd_config_name GitRepublish.cmd_add GitRepublish.cmd_commit
       GitRepublish.cmd_remote GitRepublish.cmd_push dq String.append] in H;
  discriminate H.

Lemma git_commands_NoDup (token date : string) :
  NoDup (GitRepublish.git_commands token date).
Proof.
  unfold GitRepublish.git_commands.
  repeat (apply NoDup_cons_2;
          [rewrite ?elem_of_cons, elem_of_nil;
           intros H; repeat (destruct H as [H|H]; [differ H|]); exact H|]).
  apply NoDup_nil_2.
Qed.

(** X2: no run of the git script invokes a command twice, whatever the
    token, the date and the outcomes: nothing is retried and no step is
    repeated. *)
Theorem git_no_command_twice (w : World) :
  NoDup (commands (trace GitRepublish.main w)).
Proof.
  destruct (git_commands_take w) as [n ->].
  eapply sublist_NoDup; [apply git_commands_NoDup|apply sublist_take].
Qed.

(** X3: the forced push is attempted only when the seven commands before it
    have all succeeded, the commit and the remote registration included, and
    it is the last command of the run. *)
Theorem git_push_only_after_success (w : World) (r : option JsError) :
  ("git push -f origin gh-pages", r) ∈ execs (trace GitRepublish.main w) ->
  let token := interpolate (env w !! "GITHUB_TOKEN") in
  let date := locale_date w "ru-RU" (date_of (local (now w))) in
  execs (trace GitRepublish.main w) =
    succeeded [ GitRepublish.cmd_init; GitRepublish.cmd_checkout;
                GitRepublish.cmd_config_email; GitRepublish.cmd_config_name;
                GitRepublish.cmd_add; GitRepublish.cmd_commit date;
                GitRepublish.cmd_remote token ]
    ++ [("git push -f origin gh-pages", r)].
Proof.
  intros Hin token date.
  pose proof (git_commands_NoDup token date) as Hnd.
  destruct (git_run_cases w) as [(_ & _ & Htr)|[(_ & _ & Hexecs & _)|(_ & _ & k & c & e & Hk & Hexecs & _)]].
  - rewrite Htr in Hin. by apply elem_of_nil in Hin.
  - rewrite Hexecs in Hin |- *.
    apply list_elem_of_fmap in Hin as (c & [= _ ->] & _). reflexivity.
  - fold token date in Hk, Hexecs. rewrite Hexecs in Hin |- *.
    assert (Hpush : GitRepublish.git_commands token date !! 7%nat
                      = Some GitRepublish.cmd_push) by reflexivity.
    apply elem_of_app in Hin as [Hin|Hin].
    + apply list_elem_of_fmap in Hin as (c' & [= <- _] & Hin).
      apply list_elem_of_lookup in Hin as [i Hi].
      apply lookup_take_Some in Hi as [Hi Hlt].
      pose proof (NoDup_lookup _ _ _ _ Hnd Hi Hpush) as ->.
      apply lookup_lt_Some in Hk. cbn in Hk. lia.
    + apply list_elem_of_singleton in Hin. injection Hin as <- <-.
      pose proof (NoDup_lookup _ _ _ _ Hnd Hk Hpush) as ->. reflexivity.
Qed.

Lemma git_push_only_after_success_witness :
  length (execs (trace GitRepublish.main Examples.push_fails)) = 8%nat.
Proof.
  rewrite (git_push_only_after_success Examples.push_fails (Some Examples.push_rejected)).
  - reflexivity.
  - vm_compute. apply list_elem_of_In. do 7 right. left. reflexivity.
Defined.

(** ** What the scripts print *)

(** Closes the facts about the console output of one fully evaluated run. *)
Ltac console_facts :=
  cbn; repeat split; intros;
  try done; try lia; try (eexists; reflexivity);
  try (repeat match goal with
              | H : _ ∈ [] |- _ => by apply elem_of_nil in H
              | H : _ ∈ _ :: _ |- _ => apply elem_of_cons in H as [H|H]; [discriminate H|]
              end);
  try (rewrite ?elem_of_cons; auto).

(** X4: the git script prints its success message exactly when it exits
    with 0, and then as the last thing it does; a run that exits with 1 ends
    in its diagnostic on standard error.  The working directory is logged
    exactly when the four set-up commands succeeded, that is when git add
    was reached. *)
Theorem git_console_output (w : World) :
  let tr := trace GitRepublish.main w in
  let dir_log := [AStr "Текущая директория:"; AStr (cwd w)] in
  let done_log := [AStr "Успешно опубликовано на GitHub Pages"] in
  (exit_code GitRepublish.main w = 0 <-> done_log ∈ stdout tr) /\
  (exit_code GitRepublish.main w = 0 -> last tr = Some (ConsoleLog done_log)) /\
  (exit_code GitRepublish.main w = 1 -> exists args, last tr = Some (ConsoleError args)) /\
  (dir_log ∈ stdout tr <-> (5 <= length (execs tr))%nat).
Proof.
  cbv zeta. run_step.
  destruct (truthy (env w !! "GITHUB_TOKEN")); cbn [negb]; run_step;
    [|console_facts].
  repeat match goal with
  | |- context [exec_oracle w ?t ?c] => destruct (exec_oracle w t c); run_step
  end; console_facts.
Qed.

(** X5: publish.js prints its success message exactly when it exits with 0,
    as its last action; a run that exits with 1 ends in the Upload failed
    diagnostic, and a failed run prints nothing to standard output. *)
Theorem api_console_output (w : World) :
  let tr := trace ApiUpload.main w in
  let done_log := [AStr "File uploaded successfully!"] in
  (exit_code ApiUpload.main w = 0 <-> done_log ∈ stdout tr) /\
  (exit_code ApiUpload.main w = 0 -> last tr = Some (ConsoleLog done_log)) /\
  (exit_code ApiUpload.main w = 1 ->
     stdout tr = [] /\
     exists e, last tr = Some (ConsoleError [AStr "Upload failed:"; AErr e])).
Proof.
  cbv zeta. unfold exit_code, trace.
  destruct (api_run_cases w) as [(e & _ & ->)|(bytes & _ & [(e & _ & ->)|(_ & ->)])];
    console_facts.
Qed.

(** ** [publish.js]: the content it sends *)

(** X6: publish.js does not look at what it read: an empty docs/index.html
    is sent like any other, in one request whose content is the empty
    string. *)
Theorem api_empty_file_uploaded (w : World) :
  fs_oracle w [] (artifact_path w) = inr [] ->
  exists p,
    requests (trace ApiUpload.main w) = [(env w !! "GITHUB_TOKEN", p)] /\
    p !! "content" = Some EmptyString.
Proof.
  intros Hfs. rewrite api_requests, Hfs. eexists. split; [reflexivity|].
  by destruct (payload_fields (Base64.encode [])
                 (Some (iso_date (date_of (utc (now w))))))
       as (_ & _ & _ & _ & ? & _).
Qed.

Lemma api_empty_file_uploaded_witness :
  exists p,
    requests (trace ApiUpload.main Edge.empty_file) = [(Some "ghp_example", p)] /\
    p !! "content" = Some EmptyString.
Proof.
  apply (api_empty_file_uploaded Edge.empty_file). reflexivity.
Defined.

Lemma base64_char_of_sextet (n : Z) :
  0 <= n < 64 -> base64_char (Base64.char_of_sextet n) = true.
Proof.
  intros Hn.
  assert (Ht : forallb (fun m => base64_char (Base64.char_of_sextet m)) (seqZ 0 64) = true)
    by (vm_compute; reflexivity).
  rewrite forallb_forall in Ht. apply Ht, list_elem_of_In, elem_of_seqZ. lia.
Qed.

Lemma encode_chars (bs : list byte) : all_chars base64_char (Base64.encode bs) = true.
Proof.
  remember (length bs) as n eqn:Hn. revert bs Hn.
  induction (lt_wf n) as [n _ IH]. intros bs Hn.
  destruct bs as [|a [|b [|c rest]]]; cbn [Base64.encode all_chars];
    rewrite ?base64_char_of_sextet by apply sextet_range; try reflexivity.
  cbn [andb]. apply (IH (length rest)); [subst n; cbn; lia|reflexivity].
Qed.

Lemma encode_length (bs : list byte) :
  String.length (Base64.encode bs) = (4 * ((length bs + 2) / 3))%nat.
Proof.
  remember (length bs) as n eqn:Hn. revert bs Hn.
  induction (lt_wf n) as [n _ IH]. intros bs ->.
  destruct bs as [|a [|b [|c rest]]]; try reflexivity.
  cbn [Base64.encode String.length length].
  rewrite (IH (length rest)) with (bs := rest) by (cbn; lia || reflexivity).
  replace (S (S (S (length rest))) + 2)%nat with (length rest + 2 + 1 * 3)%nat by lia.
  rewrite Nat.div_add by lia. lia.
Qed.

(** X7: the content of every request is well-formed base64 text: four
    characters for every three bytes of the file, rounded up, each of the
    alphabet or the padding sign. *)
Theorem api_content_shape (w : World) (auth : option string) (p : Params) :
  (auth, p) ∈ requests (trace ApiUpload.main w) ->
  exists bytes content,
    fs_oracle w [] (artifact_path w) = inr bytes /\
    p !! "content" = Some content /\
    String.length content = (4 * ((length bytes + 2) / 3))%nat /\
    all_chars base64_char content = true.
Proof.
  rewrite api_requests.
  destruct (fs_oracle w [] (artifact_path w)) as [e|bytes];
    [intros Hin; by apply elem_of_nil in Hin|].
  intros Hin%list_elem_of_singleton. injection Hin as _ ->.
  exists bytes, (Base64.encode bytes). split; [reflexivity|]. split; [|split].
  - by destruct (payload_fields (Base64.encode bytes)
                   (Some (iso_date (date_of (utc (now w))))))
         as (_ & _ & _ & _ & ? & _).
  - apply encode_length.
  - apply encode_chars.
Qed.

Lemma api_content_shape_witness :
  exists bytes content,
    fs_oracle Examples.healthy [] (artifact_path Examples.healthy) = inr bytes /\
    ApiUpload.payload "SGkh" (Some "2026-11-01") !! "content" = Some content /\
    String.length content = (4 * ((length bytes + 2) / 3))%nat /\
    all_chars base64_char content = true.
Proof.
  apply (api_content_shape Examples.healthy (Some "ghp_example")).
  rewrite api_requests. apply list_elem_of_singleton. reflexivity.
Defined.

(** X8: the content tells files apart: two runs that read different bytes
    send different contents. *)
Theorem api_content_distinguishes (w1 w2 : World) (bs1 bs2 : list byte)
    (a1 a2 : option string) (p1 p2 : Params) :
  fs_oracle w1 [] (artifact_path w1) = inr bs1 ->
  fs_oracle w2 [] (artifact_path w2) = inr bs2 ->
  (a1, p1) ∈ requests (trace ApiUpload.main w1) ->
  (a2, p2) ∈ requests (trace ApiUpload.main w2) ->
  bs1 <> bs2 ->
  p1 !! "content" <> p2 !! "content".
Proof.
  intros Hfs1 Hfs2 Hin1 Hin2 Hne Heq. apply Hne.
  rewrite api_requests, Hfs1 in Hin1. rewrite api_requests, Hfs2 in Hin2.
  apply list_elem_of_singleton in Hin1, Hin2.
  injection Hin1 as _ ->. injection Hin2 as _ ->.
  destruct (payload_fields (Base64.encode bs1)
              (Some (iso_date (date_of (utc (now w1))))))
    as (_ & _ & _ & _ & Hc1 & _).
  destruct (payload_fields (Base64.encode bs2)
              (Some (iso_date (date_of (utc (now w2))))))
    as (_ & _ & _ & _ & Hc2 & _).
  rewrite Hc1, Hc2 in Heq. injection Heq as Heq.
  apply (f_equal Base64.decode) in Heq. rewrite !decode_encode in Heq. congruence.
Qed.

Lemma api_content_distinguishes_witness :
  ApiUpload.payload "SGkh" (Some "2026-11-01") !! "content" <>
  ApiUpload.payload "SGk=" (Some "2026-11-01") !! "content".
Proof.
  apply (api_content_distinguishes Examples.healthy Edge.other_file
           Examples.artifact [x48; x69]%byte (Some "ghp_example") (Some "ghp_example")).
  - reflexivity.
  - reflexivity.
  - rewrite api_requests. apply list_elem_of_singleton. reflexivity.
  - rewrite api_requests. apply list_elem_of_singleton. reflexivity.
  - discriminate.
Defined.

(** ** [publish.js]: the date stamp, for every clock *)

(** X9: whatever the clock reads, years outside 0..9999 included, the
    message of a request is Update ChangeLog on followed by exactly the part
    of toISOString before its first T: the index [0] of the split always
    exists, so the message never carries undefined, and the time of day
    never leaks into it. *)
Theorem api_stamp_every_date (w : World) (auth : option string) (p : Params) :
  (auth, p) ∈ requests (trace ApiUpload.main w) ->
  exists stamp,
    p !! "message" = Some ("Update ChangeLog on " +:+ stamp) /\
    toISOString (now w) = stamp +:+ "T" +:+ iso_time (utc (now w)) /\
    Text.occurs "T" stamp = false.
Proof.
  intros Hin%api_request_message.
  exists (iso_date (date_of (utc (now w)))).
  split; [exact Hin|]. split; [reflexivity|apply occurs_T_iso_date].
Qed.

Lemma api_stamp_every_date_witness :
  exists stamp,
    ApiUpload.payload "SGkh" (Some "+010000-01-01") !! "message" =
      Some ("Update ChangeLog on " +:+ stamp) /\
    toISOString Examples.far_future =
      stamp +:+ "T" +:+ iso_time (utc Examples.far_future) /\
    Text.occurs "T" stamp = false.
Proof.
  apply (api_stamp_every_date Examples.year_10000 (Some "ghp_example")).
  rewrite api_requests. apply list_elem_of_singleton. reflexivity.
Defined.

(** ** Splitting *)

Lemma join_cons (sep : ascii) (x : string) (l : list string) :
  l <> [] -> join sep (x :: l) = x +:+ String sep (join sep l).
Proof. by destruct l. Qed.

(** X10: split, as publish.js uses it on the ISO string, never returns an
    empty array (so the index [0] exists); it returns one piece more than
    there are separators, no piece contains the separator, and joining the
    pieces with the separator gives the string back. *)
Theorem split_pieces (sep : ascii) (s : string) :
  Text.split sep s <> [] /\
  length (Text.split sep s) = S (count_char sep s) /\
  (forall piece, piece ∈ Text.split sep s -> Text.occurs sep piece = false) /\
  join sep (Text.split sep s) = s.
Proof.
  induction s as [|c rest (Hne & Hlen & Hfree & Hjoin)]; cbn [Text.split count_char].
  - repeat split; try done.
    intros piece ->%list_elem_of_singleton. reflexivity.
  - destruct (Ascii.eqb_spec c sep) as [->|Hc].
    + repeat split; try done.
      * cbn. by rewrite Hlen.
      * intros piece [->|Hin]%elem_of_cons; [reflexivity|by apply Hfree].
      * rewrite join_cons by done. by rewrite Hjoin.
    + destruct (Text.split sep rest) as [|x xs]; [done|].
      repeat split; try done.
      * intros piece [->|Hin]%elem_of_cons.
        -- cbn. apply orb_false_intro; [by apply Ascii.eqb_neq|].
           apply Hfree. by left.
        -- apply Hfree. by right.
      * destruct xs as [|y ys]; cbn in Hjoin |- *; by rewrite <- Hjoin.
Qed.

(** ** Each script keeps to its own transport *)

(** X11: in every world, token set or not, publish.js never invokes a
    subprocess, and the git script never reads a file through the script
    and never sends an API request. *)
Theorem scripts_keep_to_their_transport (w : World) :
  execs (trace ApiUpload.main w) = [] /\
  reads (trace GitRepublish.main w) = [] /\
  requests (trace GitRepublish.main w) = [].
Proof.
  split; [|apply git_no_file_no_request].
  unfold trace.
  by destruct (api_run_cases w) as [(e & _ & ->)|(bytes & _ & [(e & _ & ->)|(_ & ->)])].
Qed.
